(** * md_slash: the trailing-backslash line-break preprocessor

    A shallow embedding of [docs/tools/src/md_slash/__init__.py] and the
    properties of its line transformation and of its registration into
    the Markdown host.

    Python [str] values are modelled as [string], a sequence of
    characters with codes below 256; the only character the program
    inspects is the backslash (code 92).  The list of lines is a
    [list string], indexed with stdpp's lookup. *)

From stdpp Require Import base list strings gmap sorting.
From Stdlib Require Import ZArith Lia.

Local Open Scope Z_scope.

(** ** Python built-ins used by the source *)

Module Py.

(** [len(s)] *)
Definition len (s : string) : Z := Z.of_nat (String.length s).

(** The bound of [x[:stop]] on a sequence of length [n]: a negative
    [stop] counts from the end, and the result is clamped into
    [0 .. n], so a slice never raises. *)
Definition slice_stop (n stop : Z) : nat :=
  Z.to_nat (if stop <? 0 then Z.max 0 (stop + n) else Z.min stop n).

(** [s[:stop]] *)
Definition slice_to (s : string) (stop : Z) : string :=
  String.substring 0 (slice_stop (len s) stop) s.

(** [s.endswith(suffix)]: the last [len(suffix)] characters of [s] are
    [suffix]. *)
Definition endswith (s suffix : string) : bool :=
  let n := String.length s in
  let m := String.length suffix in
  (m <=? n)%nat && String.eqb (String.substring (n - m) m s) suffix.

(** [c.isspace()] for a character below code 256: the ASCII blanks and
    separators, next-line and the no-break space. *)
Definition is_whitespace (c : Ascii.ascii) : bool :=
  let n := Ascii.nat_of_ascii c in
  ((9 <=? n) && (n <=? 13) || (28 <=? n) && (n <=? 32) || (n =? 133) || (n =? 160))%nat.

Fixpoint all_whitespace (s : string) : bool :=
  match s with
  | EmptyString => true
  | String c s' => is_whitespace c && all_whitespace s'
  end.

(** [s.isspace()]: at least one character, and nothing but whitespace. *)
Definition isspace (s : string) : bool :=
  (0 <? len s) && all_whitespace s.

(** Exceptions the modelled operations can raise. *)
Inductive exn : Type :=
  | AttributeError
  | TypeError
  | KeyError (key : string).

Inductive result (A : Type) : Type :=
  | Ok (a : A)
  | Raise (e : exn).
Global Arguments Ok {A} a.
Global Arguments Raise {A} e.

Global Instance result_ret : MRet result := fun A a => Ok a.

Global Instance result_bind : MBind result := fun A B k m =>
  match m with
  | Ok a => k a
  | Raise e => Raise e
  end.

(** Values as the interpreter sees them, for the places where the
    source does not know the type of what it is handed. *)
#[warnings="-register-all"]
Inductive object : Type :=
  | PyNone
  | PyInt (z : Z)
  | PyStr (s : string)
  | PyList (items : list object).

(** Iterating a string yields its characters as one-character strings. *)
Fixpoint chars (s : string) : list object :=
  match s with
  | EmptyString => []
  | String c s' => PyStr (String c EmptyString) :: chars s'
  end.

(** [iter(o)] as a [for] loop consumes it. *)
Definition iter (o : object) : result (list object) :=
  match o with
  | PyList items => Ok items
  | PyStr s => Ok (chars s)
  | PyNone | PyInt _ => Raise TypeError
  end.

(** [o.endswith(suffix)] with a [str] literal as [suffix]: only [str]
    has the attribute. *)
Definition obj_endswith (o : object) (suffix : string) : result bool :=
  match o with
  | PyStr s => Ok (endswith s suffix)
  | PyNone | PyInt _ | PyList _ => Raise AttributeError
  end.

(** [o[:stop]] *)
Definition obj_slice_to (o : object) (stop : Z) : result object :=
  match o with
  | PyStr s => Ok (PyStr (slice_to s stop))
  | PyList items => Ok (PyList (take (slice_stop (Z.of_nat (length items)) stop) items))
  | PyNone | PyInt _ => Raise TypeError
  end.

(** [o + t] with a [str] literal as [t]. *)
Definition obj_add_str (o : object) (t : string) : result object :=
  match o with
  | PyStr s => Ok (PyStr (s +:+ t))
  | PyNone | PyInt _ | PyList _ => Raise TypeError
  end.

End Py.


(** ** The host library, as far as the source uses it *)

Module markdown.

(** Modelled from the spec: a line-preprocessing stage of the host, an
    object with one operation from the document lines to the document
    lines ([markdown.preprocessors.Preprocessor]). *)
Record Preprocessor : Type := { Preprocessor_run : list string -> list string }.

(** Modelled from the spec: the named, ordered collection of stages of
    the host ([md.preprocessors]).  Every stage carries a name and a
    numeric priority; a name stands for at most one stage, and stages
    with higher priority values execute earlier. *)
Module Registry.

Record entry (A : Type) : Type :=
  { name : string; priority : Z; item : A }.
Global Arguments name {A} _.
Global Arguments priority {A} _.
Global Arguments item {A} _.

Definition t (A : Type) : Type := list (entry A).

Definition named {A} (n : string) (e : entry A) : bool :=
  String.eqb (name e) n.

(** Remove the stage registered under [n], if any. *)
Definition deregister {A} (n : string) (r : t A) : t A :=
  List.filter (fun e => negb (named n e)) r.

(** Register [x] under [n] with priority [p], replacing a stage that
    already has this name. *)
Definition register {A} (x : A) (n : string) (p : Z) (r : t A) : t A :=
  deregister n r ++ [{| name := n; priority := p; item := x |}].

(** The stage registered under [n]. *)
Definition get {A} (n : string) (r : t A) : option (entry A) :=
  List.find (named n) r.

(** Put [e] into a list ordered by decreasing priority, before the
    stages that do not have a higher priority. *)
Fixpoint place {A} (e : entry A) (l : list (entry A)) : list (entry A) :=
  match l with
  | [] => [e]
  | e' :: l' =>
      if priority e' <=? priority e then e :: l else e' :: place e l'
  end.

(** The order in which the stages execute: decreasing priority,
    registration order among equal priorities. *)
Definition order {A} (r : t A) : list (entry A) :=
  foldr place [] r.

(** [e] may execute before [e']: its priority is not lower. *)
Definition runs_no_later {A} (e e' : entry A) : Prop :=
  priority e' <= priority e.

End Registry.

(** The host object handed to [extendMarkdown]; the source touches its
    [preprocessors] attribute only. *)
Record Markdown : Type := { preprocessors : Registry.t Preprocessor }.

(** The host runs the document through its stages in execution order. *)
Definition run_preprocessors (md : Markdown) (lines : list string) : list string :=
  foldl (fun ls e => Preprocessor_run (Registry.item e) ls) lines
        (Registry.order (preprocessors md)).

(** The base class of extensions ([markdown.extensions.Extension]), part
    of the host library and not of this repository.  Its constructor
    stores every keyword argument into the table of options the class
    declares, and a keyword that names no declared option raises
    [KeyError].  An option is a pair of its current value and its help
    text; the conversion the host applies to the values of boolean
    options is left out, since no option is declared here. *)
Module Extension.

Definition setConfig (config : gmap string (Py.object * string))
    (key : string) (value : Py.object)
  : Py.result (gmap string (Py.object * string)) :=
  match config !! key with
  | None => Py.Raise (Py.KeyError key)
  | Some (_, help) => Py.Ok (<[key := (value, help)]> config)
  end.

Fixpoint setConfigs (config : gmap string (Py.object * string))
    (items : list (string * Py.object))
  : Py.result (gmap string (Py.object * string)) :=
  match items with
  | [] => Py.Ok config
  | (key, value) :: rest =>
      config' ← setConfig config key value ;
      setConfigs config' rest
  end.

(** [Extension.__init__(self, **kwargs)] for a class whose declared
    options are [config]. *)
Definition init (config : gmap string (Py.object * string))
    (kwargs : list (string * Py.object))
  : Py.result (gmap string (Py.object * string)) :=
  setConfigs config kwargs.

End Extension.

End markdown.

(** ** class TrailingSlashPreprocessor(Preprocessor) *)

Module TrailingSlashPreprocessor.

(** One pass through the body of [for line in lines]: the value of
    [new_lines] afterwards. *)
Definition body (new_lines : list string) (line : string) : list string :=
  if Py.endswith line "\" then
    let new_line := Py.slice_to line (-1) +:+ "<br>" in
    new_lines ++ [new_line]
  else
    new_lines ++ [line].

(** [run(self, lines)]: start from the empty list, run the body on every
    line in order, return the accumulated list. *)
Definition run (lines : list string) : list string :=
  foldl body [] lines.

(** [TrailingSlashPreprocessor(md)]: the stage object whose [run] is the
    one above.  The back reference to [md] that the host's base class
    keeps is never read by [run]. *)
Definition new (md : markdown.Markdown) : markdown.Preprocessor :=
  {| markdown.Preprocessor_run := run |}.

(** The same method on values whose type is not known beforehand: every
    operation of the body may raise. *)
Definition obj_body (new_lines : list Py.object) (line : Py.object)
  : Py.result (list Py.object) :=
  b ← Py.obj_endswith line "\" ;
  if b : bool then
    prefix ← Py.obj_slice_to line (-1) ;
    new_line ← Py.obj_add_str prefix "<br>" ;
    Py.Ok (new_lines ++ [new_line])
  else
    Py.Ok (new_lines ++ [line]).

Fixpoint obj_loop (new_lines : list Py.object) (items : list Py.object)
  : Py.result (list Py.object) :=
  match items with
  | [] => Py.Ok new_lines
  | line :: rest =>
      new_lines' ← obj_body new_lines line ;
      obj_loop new_lines' rest
  end.

Definition obj_run (lines : Py.object) : Py.result Py.object :=
  items ← Py.iter lines ;
  new_lines ← obj_loop [] items ;
  Py.Ok (Py.PyList new_lines).

End TrailingSlashPreprocessor.

(** ** class TrailingSlashExtension(Extension) *)

Module TrailingSlashExtension.

(** The class declares no options of its own: it inherits the empty
    table of the base class. *)
Definition config : gmap string (Py.object * string) := ∅.

Record t : Type := { self_config : gmap string (Py.object * string) }.

(** [TrailingSlashExtension] called with keyword arguments [kwargs]: the
    class has no constructor of its own, so this is the constructor of
    the base class. *)
Definition new (kwargs : list (string * Py.object)) : Py.result t :=
  c ← markdown.Extension.init config kwargs ;
  Py.Ok {| self_config := c |}.

(** [extendMarkdown(self, md)] *)
Definition extendMarkdown (self : t) (md : markdown.Markdown) : markdown.Markdown :=
  {| markdown.preprocessors :=
       markdown.Registry.register (TrailingSlashPreprocessor.new md)
         "trailing_slash_preprocessor" 25 (markdown.preprocessors md) |}.

End TrailingSlashExtension.

(** [makeExtension], called with keyword arguments [kwargs] *)
Definition makeExtension (kwargs : list (string * Py.object))
  : Py.result TrailingSlashExtension.t :=
  TrailingSlashExtension.new kwargs.

(** ** Concrete runs *)

Import TrailingSlashPreprocessor.

Example run_hello : run ["hello\"] = ["hello<br>"].
Proof. reflexivity. Qed.

Example run_plain : run ["hello"] = ["hello"].
Proof. reflexivity. Qed.

Example run_single_backslash : run ["\"] = ["<br>"].
Proof. reflexivity. Qed.

Example run_three :
  run ["line1\"; "line2"; "line3\"] = ["line1<br>"; "line2"; "line3<br>"].
Proof. reflexivity. Qed.

Example run_nil : run [] = [].
Proof. reflexivity. Qed.

(** ** Facts about strings *)

Section strings.

Implicit Types (p q s suffix : string) (c : Ascii.ascii).

Local Arguments String.append !_ _ / : simpl nomatch.

Lemma str_length_app p q :
  String.length (p +:+ q) = (String.length p + String.length q)%nat.
Proof. induction p as [|c p IH]; simpl; [done | by rewrite IH]. Qed.

Lemma str_app_empty_r p : p +:+ "" = p.
Proof. induction p as [|c p IH]; simpl; [done | by rewrite IH]. Qed.

Lemma str_app_assoc p q s : (p +:+ q) +:+ s = p +:+ (q +:+ s).
Proof. induction p as [|c p IH]; simpl; [done | by rewrite IH]. Qed.

Lemma substring_whole s : String.substring 0 (String.length s) s = s.
Proof. induction s as [|c s IH]; simpl; [done | by rewrite IH]. Qed.

Lemma substring_app_l p q :
  String.substring 0 (String.length p) (p +:+ q) = p.
Proof.
  induction p as [|c p IH]; simpl.
  - by destruct q.
  - by rewrite IH.
Qed.

Lemma substring_app_r p q m :
  String.substring (String.length p) m (p +:+ q) = String.substring 0 m q.
Proof. induction p as [|c p IH]; simpl; done. Qed.

(** Cutting a string at [n] and gluing the two halves gives it back. *)
Lemma substring_split s n :
  (n <= String.length s)%nat ->
  String.substring 0 n s +:+ String.substring n (String.length s - n) s = s.
Proof.
  revert n. induction s as [|c s IH]; intros [|n] Hn; simpl in *.
  - done.
  - lia.
  - by rewrite substring_whole.
  - f_equal. apply IH. lia.
Qed.

(** [endswith] decides being of the form [p + suffix]. *)
Lemma endswith_true s suffix :
  Py.endswith s suffix = true <-> exists p, s = p +:+ suffix.
Proof.
  unfold Py.endswith. rewrite andb_true_iff, Nat.leb_le, String.eqb_eq. split.
  - intros [Hle Hsub].
    exists (String.substring 0 (String.length s - String.length suffix) s).
    pose proof (substring_split s (String.length s - String.length suffix)) as Hs.
    replace (String.length s - (String.length s - String.length suffix))%nat
      with (String.length suffix) in Hs by lia.
    rewrite Hsub in Hs. symmetry. apply Hs. lia.
  - intros [p ->]. rewrite str_length_app. split; [lia|].
    replace (String.length p + String.length suffix - String.length suffix)%nat
      with (String.length p) by lia.
    by rewrite substring_app_r, substring_whole.
Qed.

Lemma endswith_false s suffix :
  Py.endswith s suffix = false <-> forall p, s <> p +:+ suffix.
Proof.
  rewrite <- not_true_iff_false, endswith_true. split.
  - intros Hn p Hp. apply Hn. by exists p.
  - intros Hn [p Hp]. by apply (Hn p).
Qed.

Lemma endswith_app p suffix : Py.endswith (p +:+ suffix) suffix = true.
Proof. apply endswith_true. by exists p. Qed.

(** [s[:-1]] drops the last character. *)
Lemma slice_to_minus_one p c : Py.slice_to (p +:+ String c "") (-1) = p.
Proof.
  unfold Py.slice_to, Py.slice_stop, Py.len. rewrite str_length_app. simpl.
  replace (Z.to_nat (Z.max 0 (-1 + Z.of_nat (String.length p + 1))))
    with (String.length p) by lia.
  apply substring_app_l.
Qed.

Lemma slice_to_minus_one_empty : Py.slice_to "" (-1) = "".
Proof. reflexivity. Qed.

(** A string that ends in one suffix does not end in another one of the
    same length. *)
Lemma str_app_inj_length p q s1 s2 :
  String.length s1 = String.length s2 -> p +:+ s1 = q +:+ s2 -> p = q /\ s1 = s2.
Proof.
  revert q. induction p as [|c p IH]; intros [|d q] Hlen Heq; simpl in *.
  - done.
  - exfalso. apply (f_equal String.length) in Heq. simpl in Heq.
    rewrite str_length_app in Heq. lia.
  - exfalso. apply (f_equal String.length) in Heq. simpl in Heq.
    rewrite str_length_app in Heq. lia.
  - injection Heq as -> Heq. destruct (IH q Hlen Heq) as [-> ->]. done.
Qed.

Lemma endswith_br_not_backslash q : Py.endswith (q +:+ "<br>") "\" = false.
Proof.
  apply endswith_false. intros p Hp.
  change "<br>" with ("<br" +:+ ">") in Hp. rewrite <- str_app_assoc in Hp.
  apply str_app_inj_length in Hp as [_ Hp]; [discriminate | done].
Qed.

End strings.

(** ** The loop of [run] *)

Section run.

Implicit Types (lines new_lines : list string) (line p : string) (i : nat).

(** What the body appends for one line. *)
Local Abbreviation appended line :=
  (if Py.endswith line%string "\" then Py.slice_to line%string (-1) +:+ "<br>"
   else line%string).

Lemma body_appends new_lines line :
  body new_lines line = new_lines ++ [appended line].
Proof. unfold body. by destruct (Py.endswith line "\"). Qed.

Lemma loop_appends lines new_lines :
  foldl body new_lines lines = new_lines ++ ((fun line => appended line) <$> lines).
Proof.
  revert new_lines. induction lines as [|line lines IH]; intros new_lines; simpl.
  - by rewrite app_nil_r.
  - rewrite IH, body_appends, <- app_assoc. done.
Qed.

Lemma run_fmap lines : run lines = (fun line => appended line) <$> lines.
Proof. unfold run. by rewrite loop_appends. Qed.

Lemma run_lookup lines i :
  run lines !! i = (fun line => appended line) <$> lines !! i.
Proof. by rewrite run_fmap, list_lookup_fmap. Qed.

Lemma run_app lines1 lines2 : run (lines1 ++ lines2) = run lines1 ++ run lines2.
Proof. by rewrite !run_fmap, fmap_app. Qed.

Lemma appended_backslash p : appended (p +:+ "\") = p +:+ "<br>".
Proof. by rewrite endswith_app, slice_to_minus_one. Qed.

Lemma appended_other line : (forall p, line <> p +:+ "\") -> appended line = line.
Proof. intros H. apply endswith_false in H. by rewrite H. Qed.

Lemma appended_no_backslash line : Py.endswith (appended line) "\" = false.
Proof.
  destruct (Py.endswith line "\") eqn:E; [|done].
  apply endswith_br_not_backslash.
Qed.

Lemma appended_idem line : appended (appended line) = appended line.
Proof.
  pose proof (appended_no_backslash line) as H.
  destruct (Py.endswith line "\") eqn:E; by rewrite H.
Qed.

Lemma run_lookup_backslash lines i p :
  lines !! i = Some (p +:+ "\") -> run lines !! i = Some (p +:+ "<br>").
Proof.
  intros Hi. rewrite run_lookup, Hi. simpl. f_equal. apply appended_backslash.
Qed.

Lemma run_lookup_other lines i line :
  lines !! i = Some line -> (forall p, line <> p +:+ "\") ->
  run lines !! i = Some line.
Proof.
  intros Hi Hline. rewrite run_lookup, Hi. simpl. f_equal.
  by apply appended_other.
Qed.

End run.

(** ** The line transformation *)

(** C1: whenever the line at index [i] ends with a backslash, that is,
    it is some [p] followed by one backslash, the output at index [i] is
    [p], the line without its final character, immediately followed by
    the break marker [<br>]. *)
Theorem run_line_ending_in_backslash (lines : list string) (i : nat) (p : string) :
  lines !! i = Some (p +:+ "\") ->
  run lines !! i = Some (p +:+ "<br>").
Proof. apply run_lookup_backslash. Qed.

Lemma run_line_ending_in_backslash_witness :
  ["one"; "hello\"] !! 1%nat = Some ("hello" +:+ "\") /\
  run ["one"; "hello\"] !! 1%nat = Some ("hello" +:+ "<br>").
Proof.
  split; [reflexivity|].
  apply (run_line_ending_in_backslash ["one"; "hello\"] 1 "hello"). reflexivity.
Defined.

(** C2: whenever the line at index [i] does not end with a backslash, the
    output at index [i] is that very line; the empty string is such a
    line. *)
Theorem run_line_not_ending_in_backslash :
  (forall (lines : list string) (i : nat) (line : string),
     lines !! i = Some line ->
     (forall p, line <> p +:+ "\") ->
     run lines !! i = Some line) /\
  (forall p, "" <> p +:+ "\").
Proof.
  split.
  - apply run_lookup_other.
  - by intros [|c p].
Qed.

Lemma run_line_not_ending_in_backslash_witness :
  ["a\"; ""; "b"] !! 1%nat = Some "" /\
  (forall p, "" <> p +:+ "\") /\
  run ["a\"; ""; "b"] !! 1%nat = Some "".
Proof.
  pose proof run_line_not_ending_in_backslash as [Hrun Hempty].
  split; [reflexivity|]. split; [exact Hempty|].
  apply (Hrun ["a\"; ""; "b"] 1%nat ""); [reflexivity | exact Hempty].
Defined.

(** C3: the output has exactly as many lines as the input, and the empty
    sequence maps to the empty sequence. *)
Theorem run_length :
  (forall lines : list string, length (run lines) = length lines) /\
  run [] = [].
Proof.
  split; [|reflexivity].
  intros lines. by rewrite run_fmap, length_fmap.
Qed.

(** C4: of a line that ends in two or more backslashes only the final one
    is replaced by the break marker; whatever precedes it, the other
    backslashes included, is kept.  The line [a] followed by two
    backslashes becomes [a], one backslash and the marker. *)
Theorem run_line_ending_in_backslashes :
  (forall (lines : list string) (i : nat) (p : string),
     lines !! i = Some (p +:+ "\\") ->
     run lines !! i = Some (p +:+ "\" +:+ "<br>")) /\
  run ["a\\"] = ["a\<br>"].
Proof.
  split; [|reflexivity].
  intros lines i p Hi.
  rewrite <- str_app_assoc. apply run_lookup_backslash.
  by rewrite str_app_assoc.
Qed.

Lemma run_line_ending_in_backslashes_witness :
  ["x"; "a\\\"] !! 1%nat = Some ("a\" +:+ "\\") /\
  run ["x"; "a\\\"] !! 1%nat = Some ("a\" +:+ "\" +:+ "<br>").
Proof.
  split; [reflexivity|].
  apply (proj1 run_line_ending_in_backslashes ["x"; "a\\\"] 1%nat "a\").
  reflexivity.
Defined.

(** C5: running the transformation on its own output changes nothing,
    for every input; the reason is that a line closed by the break marker
    [<br>] does not end with a backslash. *)
Theorem run_idempotent :
  (forall lines : list string, run (run lines) = run lines) /\
  (forall q, Py.endswith (q +:+ "<br>") "\" = false).
Proof.
  split; [|apply endswith_br_not_backslash].
  intros lines. rewrite !run_fmap, <- list_fmap_compose.
  apply list_fmap_ext. intros _ line _. simpl. apply appended_idem.
Qed.

(** A string that [isspace] accepts has a last character, and it is a
    whitespace character. *)
Lemma isspace_last (ws : string) :
  Py.isspace ws = true ->
  exists ws' c, ws = ws' +:+ String c "" /\ Py.is_whitespace c = true.
Proof.
  unfold Py.isspace. intros [Hlen Hall]%andb_true_iff.
  assert (ws <> "") as Hne by (intros ->; discriminate Hlen).
  clear Hlen. induction ws as [|a ws IH]; [done|].
  simpl in Hall. apply andb_true_iff in Hall as [Ha Hall].
  destruct ws as [|b ws].
  - by exists "", a.
  - destruct (IH Hall) as (ws' & c & Hws & Hc); [done|].
    exists (String a ws'), c. split; [|done].
    change (String a ws' +:+ String c "") with (String a (ws' +:+ String c "")).
    by rewrite <- Hws.
Qed.

(** C6: the test looks at the final character of the line as given.  A
    line made of some text, a backslash and then one or more whitespace
    characters (a backslash followed by a space, for one) does not have
    a backslash as its last character, and comes out unchanged. *)
Theorem run_backslash_then_whitespace
    (lines : list string) (i : nat) (p ws : string) :
  Py.isspace ws = true ->
  lines !! i = Some (p +:+ "\" +:+ ws) ->
  (forall q, p +:+ "\" +:+ ws <> q +:+ "\") /\
  run lines !! i = Some (p +:+ "\" +:+ ws).
Proof.
  intros Hws Hi.
  assert (forall q, p +:+ "\" +:+ ws <> q +:+ "\") as Hlast.
  { destruct (isspace_last ws Hws) as (ws' & c & -> & Hc). intros q Hq.
    rewrite <- !str_app_assoc in Hq.
    apply str_app_inj_length in Hq as [_ Hq]; [|done].
    injection Hq as ->. discriminate Hc. }
  split; [done|].
  by apply run_lookup_other.
Qed.

Lemma run_backslash_then_whitespace_witness :
  Py.isspace " " = true /\
  ["text\ "] !! 0%nat = Some ("text" +:+ "\" +:+ " ") /\
  run ["text\ "] !! 0%nat = Some ("text" +:+ "\" +:+ " ").
Proof.
  split; [reflexivity|]. split; [reflexivity|].
  apply (run_backslash_then_whitespace ["text\ "] 0%nat "text" " "); reflexivity.
Defined.

(** C10: no line of the output ends with a backslash.  Line by line, the
    output either is the input line, which then did not end with a
    backslash, or it ends with the marker [<br>]; and nothing that ends
    with the marker ends with a backslash. *)
Theorem run_output_never_ends_in_backslash :
  (forall lines : list string,
     Forall2 (fun line out =>
                (forall p, out <> p +:+ "\") /\
                ((out = line /\ forall p, line <> p +:+ "\") \/
                 exists q, out = q +:+ "<br>"))
             lines (run lines)) /\
  (forall q p, q +:+ "<br>" <> p +:+ "\").
Proof.
  split.
  - intros lines. rewrite run_fmap. apply Forall2_fmap_r, Forall_Forall2_diag.
    apply Forall_forall. intros line _. split.
    + apply endswith_false, appended_no_backslash.
    + destruct (Py.endswith line "\") eqn:E.
      * right. by eexists.
      * left. split; [done|]. by apply endswith_false.
  - intros q. apply endswith_false, endswith_br_not_backslash.
Qed.

(** ** Totality *)

Lemma obj_body_str (new_lines : list Py.object) (line : string) :
  obj_body new_lines (Py.PyStr line) = Py.Ok (new_lines ++ (Py.PyStr <$> body [] line)).
Proof.
  unfold obj_body, body. simpl.
  by destruct (Py.endswith line "\").
Qed.

Lemma obj_loop_str (lines : list string) (new_lines acc : list string) :
  foldl body acc lines = new_lines ->
  obj_loop (Py.PyStr <$> acc) (Py.PyStr <$> lines) = Py.Ok (Py.PyStr <$> new_lines).
Proof.
  revert acc. induction lines as [|line lines IH]; intros acc Hfold; simpl in *.
  - by subst.
  - rewrite obj_body_str. simpl.
    rewrite body_appends in Hfold.
    specialize (IH _ Hfold). rewrite fmap_app in IH.
    rewrite body_appends. done.
Qed.

(** C9: [run] is total.  Executed on any finite list of strings, with
    every operation of the loop body allowed to raise, the method comes
    to an end after one pass per line, raises nothing, and returns the
    list that [run] denotes. *)
Theorem run_total (lines : list string) :
  obj_run (Py.PyList (Py.PyStr <$> lines)) = Py.Ok (Py.PyList (Py.PyStr <$> run lines)).
Proof.
  unfold obj_run. simpl.
  change (obj_loop [] (Py.PyStr <$> lines))
    with (obj_loop (Py.PyStr <$> []) (Py.PyStr <$> lines)).
  by rewrite (obj_loop_str lines (run lines) []).
Qed.

Example obj_run_none : obj_run Py.PyNone = Py.Raise Py.TypeError.
Proof. reflexivity. Qed.

Example obj_run_not_a_string :
  obj_run (Py.PyList [Py.PyStr "a\"; Py.PyInt 3]) = Py.Raise Py.AttributeError.
Proof. reflexivity. Qed.

(** ** The registry of stages *)

Section registry.

Import markdown.Registry.

Context {A : Type}.
Implicit Types (e : entry A) (r l : list (entry A)) (n : string) (p : Z) (x : A).

Lemma elem_of_deregister n r e : e ∈ deregister n r <-> e ∈ r /\ name e <> n.
Proof.
  unfold deregister, named.
  rewrite !list_elem_of_In, filter_In, negb_true_iff, String.eqb_neq. done.
Qed.

Lemma elem_of_register x n p r e :
  e ∈ register x n p r <->
  (e ∈ r /\ name e <> n) \/ e = {| name := n; priority := p; item := x |}.
Proof.
  unfold register.
  rewrite elem_of_app, elem_of_deregister, list_elem_of_singleton. done.
Qed.

Lemma get_register x n p r :
  get n (register x n p r) = Some {| name := n; priority := p; item := x |}.
Proof.
  unfold get, register, deregister.
  induction r as [|e r IH]; simpl.
  - unfold named. simpl. by rewrite String.eqb_refl.
  - destruct (named n e) eqn:E; simpl; [done|]. by rewrite E.
Qed.

Lemma filter_named_register x n p r :
  List.filter (named n) (register x n p r) =
  [{| name := n; priority := p; item := x |}].
Proof.
  unfold register, deregister.
  induction r as [|e r IH]; simpl.
  - unfold named. simpl. by rewrite String.eqb_refl.
  - destruct (named n e) eqn:E; simpl; [done|]. by rewrite E.
Qed.

Lemma place_perm e l : place e l ≡ₚ e :: l.
Proof.
  induction l as [|e' l IH]; simpl; [done|].
  destruct (priority e' <=? priority e); [done|].
  rewrite IH. apply Permutation_swap.
Qed.

Lemma order_perm r : order r ≡ₚ r.
Proof.
  unfold order. induction r as [|e r IH]; simpl; [done|].
  by rewrite place_perm, IH.
Qed.

Lemma elem_of_order r e : e ∈ order r <-> e ∈ r.
Proof. by rewrite order_perm. Qed.

Lemma place_sorted e l :
  StronglySorted runs_no_later l -> StronglySorted runs_no_later (place e l).
Proof.
  induction 1 as [|e' l Hl IH Hall]; simpl.
  - repeat constructor.
  - destruct (priority e' <=? priority e) eqn:E.
    + apply Z.leb_le in E. constructor; [by constructor|].
      constructor; [done|].
      eapply Forall_impl; [exact Hall|]. unfold runs_no_later. intros; lia.
    + apply Z.leb_gt in E. constructor; [done|].
      rewrite place_perm. constructor; [|done]. unfold runs_no_later. lia.
Qed.

Lemma order_sorted r : StronglySorted runs_no_later (order r).
Proof.
  unfold order. induction r as [|e r IH]; simpl; [constructor|].
  by apply place_sorted.
Qed.

(** A stage comes before every stage of lower priority. *)
Lemma order_before r e e' :
  e ∈ r -> e' ∈ r -> priority e' < priority e ->
  exists l1 l2, order r = l1 ++ e :: l2 /\ e' ∈ l2.
Proof.
  intros He He' Hlt.
  apply elem_of_order, list_elem_of_split in He as (l1 & l2 & Hsplit).
  exists l1, l2. split; [done|].
  apply elem_of_order in He'. rewrite Hsplit in He'.
  apply elem_of_app in He' as [He'|He'].
  - pose proof (order_sorted r) as Hs. rewrite Hsplit in Hs.
    assert (runs_no_later e' e) as Hle.
    { eapply StronglySorted_app_1_elem_of; [exact Hs|done|]. by left. }
    unfold runs_no_later in Hle. lia.
  - apply elem_of_cons in He' as [->|He']; [lia|done].
Qed.

(** A stage whose priority exceeds that of every other stage runs first. *)
Lemma order_head r e :
  e ∈ r -> (forall e', e' ∈ r -> e' = e \/ priority e' < priority e) ->
  head (order r) = Some e.
Proof.
  intros He Hmax.
  pose proof (order_sorted r) as Hs.
  destruct (order r) as [|h l] eqn:Hord.
  - apply elem_of_order in He. rewrite Hord in He. by apply elem_of_nil in He.
  - simpl. f_equal.
    assert (h ∈ r) as Hh by (apply elem_of_order; rewrite Hord; by left).
    destruct (Hmax h Hh) as [->|Hlt]; [done|].
    apply elem_of_order in He. rewrite Hord in He.
    apply elem_of_cons in He as [->|He]; [done|].
    apply StronglySorted_inv in Hs as [_ Hall].
    rewrite Forall_forall in Hall. specialize (Hall e He).
    unfold runs_no_later in Hall. lia.
Qed.

End registry.

(** ** Registration into the host *)

Import markdown.

(** C7: [extendMarkdown] installs the transformer into the chain of
    line-preprocessing stages of the host under the name
    [trailing_slash_preprocessor] with the constant priority 25.  After
    the call this name stands for exactly that one stage, the other stages
    are the ones the host had, and the stage executes before every stage
    of priority below 25; so when 25 exceeds the priority of every stage
    the host had registered, the transformer is the first to run. *)
Theorem extendMarkdown_registers (self : TrailingSlashExtension.t) (md : Markdown) :
  let stage :=
    {| Registry.name := "trailing_slash_preprocessor";
       Registry.priority := 25;
       Registry.item := TrailingSlashPreprocessor.new md |} in
  let md' := TrailingSlashExtension.extendMarkdown self md in
  Preprocessor_run (Registry.item stage) = run /\
  Registry.get "trailing_slash_preprocessor" (preprocessors md') = Some stage /\
  List.filter (Registry.named "trailing_slash_preprocessor") (preprocessors md') = [stage] /\
  (forall e, Registry.name e <> "trailing_slash_preprocessor" ->
     e ∈ preprocessors md' <-> e ∈ preprocessors md) /\
  (forall e, e ∈ preprocessors md' -> Registry.priority e < 25 ->
     exists l1 l2, Registry.order (preprocessors md') = l1 ++ stage :: l2 /\ e ∈ l2) /\
  ((forall e, e ∈ preprocessors md ->
      Registry.name e <> "trailing_slash_preprocessor" -> Registry.priority e < 25) ->
   exists rest,
     Registry.order (preprocessors md') = stage :: rest /\
     forall lines,
       run_preprocessors md' lines =
       foldl (fun ls e => Preprocessor_run (Registry.item e) ls) (run lines) rest).
Proof.
  intros stage md'.
  assert (stage ∈ preprocessors md') as Hstage.
  { apply elem_of_register. by right. }
  split; [done|]. split; [apply get_register|].
  split; [apply filter_named_register|]. split; [|split].
  - intros e Hname. unfold md'. simpl. rewrite elem_of_register. split.
    + intros [[He _]| ->]; [done|]. by destruct Hname.
    + intros He. by left.
  - intros e He Hlt. by apply order_before.
  - intros Hstd.
    assert (head (Registry.order (preprocessors md')) = Some stage) as Hhead.
    { apply order_head; [done|]. intros e He.
      apply elem_of_register in He as [[He Hname]| ->]; [right|by left].
      by apply Hstd. }
    unfold run_preprocessors.
    destruct (Registry.order (preprocessors md')) as [|h rest]; [done|].
    injection Hhead as ->. by exists rest.
Qed.

Lemma extendMarkdown_registers_witness :
  let md := {| preprocessors :=
                 [{| Registry.name := "html_block"; Registry.priority := 20;
                     Registry.item := {| Preprocessor_run := fun lines => lines |} |}] |} in
  let md' := TrailingSlashExtension.extendMarkdown {| TrailingSlashExtension.self_config := ∅ |} md in
  (forall e, e ∈ preprocessors md ->
     Registry.name e <> "trailing_slash_preprocessor" -> Registry.priority e < 25) /\
  exists rest,
    Registry.order (preprocessors md') =
      {| Registry.name := "trailing_slash_preprocessor"; Registry.priority := 25;
         Registry.item := TrailingSlashPreprocessor.new md |} :: rest.
Proof.
  intros md md'.
  assert (forall e, e ∈ preprocessors md ->
     Registry.name e <> "trailing_slash_preprocessor" -> Registry.priority e < 25) as Hstd.
  { intros e He _. apply list_elem_of_singleton in He as ->. simpl. lia. }
  split; [exact Hstd|].
  destruct (extendMarkdown_registers {| TrailingSlashExtension.self_config := ∅ |} md)
    as (_ & _ & _ & _ & _ & Hfirst).
  destruct (Hfirst Hstd) as (rest & Hrest & _). by exists rest.
Defined.

(** ** Construction *)

(** C8, as stated, fails: a keyword argument that names no declared
    option makes the inherited constructor raise. *)
Lemma makeExtension_unknown_keyword :
  makeExtension [("foo", Py.PyInt 1)] = Py.Raise (Py.KeyError "foo") /\
  ~ (forall kwargs, exists ext, makeExtension kwargs = Py.Ok ext).
Proof.
  split; [reflexivity|].
  intros H. destruct (H [("foo", Py.PyInt 1)]) as [ext Hext]. discriminate Hext.
Qed.

(** C8, amended: [makeExtension] takes any keyword arguments and hands
    them unchanged to the constructor the extension inherits.  The class
    declares no option, so nothing given at construction can change what
    the extension registers; and since every keyword then names an
    undeclared option, the call returns an extension exactly when it is
    given no keyword, and otherwise raises [KeyError] for the first
    one. *)
Theorem makeExtension_keywords :
  (forall kwargs,
     makeExtension kwargs =
     (c ← Extension.init TrailingSlashExtension.config kwargs;
      Py.Ok {| TrailingSlashExtension.self_config := c |})) /\
  TrailingSlashExtension.config = ∅ /\
  (forall kwargs ext,
     makeExtension kwargs = Py.Ok ext <->
     kwargs = [] /\ ext = {| TrailingSlashExtension.self_config := ∅ |}) /\
  (forall key value rest,
     makeExtension ((key, value) :: rest) = Py.Raise (Py.KeyError key)) /\
  (forall self1 self2 md,
     TrailingSlashExtension.extendMarkdown self1 md =
     TrailingSlashExtension.extendMarkdown self2 md).
Proof.
  assert (forall key value rest,
            makeExtension ((key, value) :: rest) = Py.Raise (Py.KeyError key)) as Hraise.
  { intros key value rest.
    unfold makeExtension, TrailingSlashExtension.new, Extension.init. simpl.
    unfold Extension.setConfig, TrailingSlashExtension.config.
    by rewrite lookup_empty. }
  split; [done|]. split; [done|]. split; [|split; [exact Hraise|done]].
  intros kwargs ext. split.
  - destruct kwargs as [|[key value] rest].
    + intros [= <-]. done.
    + rewrite Hraise. discriminate.
  - intros [-> ->]. reflexivity.
Qed.

(** ** Further properties of [run] *)

Section run_more.

Implicit Types (lines : list string) (line out p : string).

Local Abbreviation appended line :=
  (if Py.endswith line%string "\" then Py.slice_to line%string (-1) +:+ "<br>"
   else line%string).

(** The line the body appends, in the two forms a line can have. *)
Lemma appended_cases line :
  (exists p, line = p +:+ "\" /\ appended line = p +:+ "<br>") \/
  ((forall p, line <> p +:+ "\") /\ appended line = line).
Proof.
  destruct (Py.endswith line "\") eqn:E.
  - left. apply endswith_true in E as [p ->]. exists p. split; [done|].
    by rewrite slice_to_minus_one.
  - right. split; [|done]. by apply endswith_false.
Qed.

Lemma run_Forall2 (P : string -> string -> Prop) lines :
  (forall line, P line (appended line)) -> Forall2 P lines (run lines).
Proof.
  intros HP. rewrite run_fmap. apply Forall2_fmap_r, Forall_Forall2_diag.
  apply Forall_forall. intros line _. apply HP.
Qed.

End run_more.

(** X1: the lines are transformed independently of one another: the
    output for two documents put end to end is the two outputs put end
    to end. *)
Theorem run_append (lines1 lines2 : list string) :
  run (lines1 ++ lines2) = run lines1 ++ run lines2.
Proof.
  by rewrite !run_fmap, fmap_app.
Qed.

(** X2: the documents that [run] leaves as they are, are exactly those
    in which no line ends with a backslash. *)
Theorem run_fixed_point (lines : list string) :
  run lines = lines <-> Forall (fun line => forall p, line <> p +:+ "\") lines.
Proof.
  rewrite run_fmap. induction lines as [|line lines IH]; simpl.
  - split; [constructor | done].
  - split.
    + intros [= Hline Hrest]. constructor; [|by apply IH].
      apply endswith_false. rewrite <- Hline at 1. apply appended_no_backslash.
    + intros [Hline Hrest]%Forall_cons. f_equal; [|by apply IH].
      by apply appended_other.
Qed.

(** X3: a line that ends with a backslash comes out three characters
    longer (one character gives way to the four of the marker); every
    other line keeps its length. *)
Theorem run_line_lengths (lines : list string) :
  Forall2 (fun line out =>
             Py.len out = Py.len line + (if Py.endswith line "\" then 3 else 0))
          lines (run lines).
Proof.
  apply run_Forall2. intros line. unfold Py.len.
  destruct (appended_cases line) as [(p & -> & ->)|[Hline ->]].
  - rewrite endswith_app, !str_length_app. simpl. lia.
  - apply endswith_false in Hline. rewrite Hline. lia.
Qed.

(** X4: nothing but the final character of a line is ever touched: at
    every position before the last, the output line has the character
    the input line has. *)
Theorem run_keeps_all_but_last (lines : list string) :
  Forall2 (fun line out =>
             forall j : nat, (S j < String.length line)%nat ->
               String.get j out = String.get j line)
          lines (run lines).
Proof.
  apply run_Forall2. intros line j Hj.
  destruct (appended_cases line) as [(p & -> & ->)|[_ ->]]; [|done].
  rewrite str_length_app in Hj. simpl in Hj.
  rewrite <- !String.append_correct1 by lia. done.
Qed.

(** X5: the input cannot be told from the output: a line that ends with
    a backslash and the line that has the marker [<br>] written out in
    its place are different lines with the same output. *)
Theorem run_not_injective (p : string) :
  p +:+ "\" <> p +:+ "<br>" /\ run [p +:+ "\"] = run [p +:+ "<br>"].
Proof.
  split.
  - intros H. apply (inj (String.app p)) in H. discriminate H.
  - rewrite !run_fmap. simpl.
    by rewrite endswith_app, slice_to_minus_one, endswith_br_not_backslash.
Qed.

(** ** What [run] does with other values *)



Lemma chars_strings (s : string) :
  exists cs : list string,
    Py.chars s = Py.PyStr <$> cs /\
    length cs = String.length s /\
    Forall (fun c => String.length c = 1%nat) cs.
Proof.
  induction s as [|a s (cs & Hcs & Hlen & Hall)]; simpl.
  - by exists [].
  - exists (String a "" :: cs). rewrite Hcs. simpl. rewrite Hlen.
    split; [done|]. split; [done|]. by constructor.
Qed.

(** X7: handed one string where the list of lines is expected, [run]
    does not raise: it takes every character for a line, and returns one
    entry per character. *)
Theorem run_on_a_single_string (s : string) :
  exists cs : list string,
    Py.chars s = Py.PyStr <$> cs /\
    length cs = String.length s /\
    Forall (fun c => String.length c = 1%nat) cs /\
    obj_run (Py.PyStr s) = Py.Ok (Py.PyList (Py.PyStr <$> run cs)).
Proof.
  destruct (chars_strings s) as (cs & Hcs & Hlen & Hall).
  exists cs. repeat split; try done.
  unfold obj_run. simpl. rewrite Hcs.
  change (obj_loop [] (Py.PyStr <$> cs))
    with (obj_loop (Py.PyStr <$> []) (Py.PyStr <$> cs)).
  by rewrite (obj_loop_str cs (run cs) []).
Qed.

Example run_on_a_single_string_ab :
  obj_run (Py.PyStr "a\b") =
  Py.Ok (Py.PyList [Py.PyStr "a"; Py.PyStr "<br>"; Py.PyStr "b"]).
Proof. reflexivity. Qed.

(** ** Further properties of the registration *)

Section registry_more.

Import markdown.Registry.

Context {A : Type}.
Implicit Types (e : entry A) (r l : list (entry A)) (n : string) (p : Z) (x : A).
Implicit Types (f : entry A -> bool).

Lemma deregister_app n r1 r2 :
  deregister n (r1 ++ r2) = deregister n r1 ++ deregister n r2.
Proof. unfold deregister. apply List.filter_app. Qed.

Lemma deregister_idem n r : deregister n (deregister n r) = deregister n r.
Proof.
  unfold deregister. induction r as [|e r IH]; simpl; [done|].
  destruct (named n e) eqn:E; simpl; [done|]. by rewrite E, IH.
Qed.

Lemma deregister_register x n p r :
  deregister n (register x n p r) = deregister n r.
Proof.
  unfold register. rewrite deregister_app, deregister_idem.
  unfold deregister at 2, named. simpl.
  by rewrite String.eqb_refl, app_nil_r.
Qed.


(** A stage that no stage of the list outranks goes to the front. *)
Lemma place_front e l :
  Forall (fun e' => priority e' <= priority e) l -> place e l = e :: l.
Proof.
  intros [|e' l' He' _]; simpl; [done|].
  apply Z.leb_le in He'. by rewrite He'.
Qed.

(** A stage goes behind the stages that outrank it. *)
Lemma place_behind e l1 l2 :
  Forall (fun e' => priority e < priority e') l1 ->
  place e (l1 ++ l2) = l1 ++ place e l2.
Proof.
  induction 1 as [|e' l1 He' _ IH]; simpl; [done|].
  apply Z.leb_gt in He'. by rewrite He', IH.
Qed.

(** A stage goes before the first stage it does not rank below, and what
    follows that stage has no say in it. *)
Lemma place_before e e' l1 l2 :
  priority e' <= priority e ->
  place e (l1 ++ e' :: l2) = place e l1 ++ e' :: l2.
Proof.
  intros Hle. induction l1 as [|a l1 IH]; simpl.
  - apply Z.leb_le in Hle. by rewrite Hle.
  - destruct (priority a <=? priority e); [done|]. by rewrite IH.
Qed.

(** Dropping stages from an ordered list and putting a stage in place
    can be done in either order. *)
Lemma filter_place f e l :
  StronglySorted runs_no_later l ->
  List.filter f (place e l) =
  if f e then place e (List.filter f l) else List.filter f l.
Proof.
  induction 1 as [|e' l Hl IH Hall]; simpl.
  - by destruct (f e).
  - destruct (priority e' <=? priority e) eqn:E; simpl.
    + apply Z.leb_le in E.
      change (if f e' then e' :: List.filter f l else List.filter f l)
        with (List.filter f (e' :: l)).
      destruct (f e); [|done]. symmetry. apply place_front.
      apply Forall_forall. intros y Hy.
      apply list_elem_of_In, filter_In in Hy as [Hy _].
      apply list_elem_of_In, elem_of_cons in Hy as [->|Hy]; [done|].
      rewrite Forall_forall in Hall. specialize (Hall y Hy).
      unfold runs_no_later in Hall. lia.
    + rewrite IH. destruct (f e'), (f e); simpl; try done.
      by rewrite E.
Qed.

Lemma filter_order f r : List.filter f (order r) = order (List.filter f r).
Proof.
  unfold order. induction r as [|e r IH]; simpl; [done|].
  rewrite filter_place by apply order_sorted.
  fold (order r). unfold order at 1 2. rewrite IH.
  by destruct (f e).
Qed.

(** Where a stage registered last ends up: behind the stages whose
    priority is not lower, before the stages whose priority is lower. *)
Lemma order_snoc e r :
  order (r ++ [e]) =
  List.filter (fun e' => priority e <=? priority e') (order r)
    ++ e :: List.filter (fun e' => priority e' <? priority e) (order r).
Proof.
  unfold order. rewrite foldr_app. simpl.
  induction r as [|a r IH]; simpl; [done|].
  rewrite IH. fold (order r).
  rewrite !filter_place by apply order_sorted.
  destruct (priority e <=? priority a) eqn:E.
  - apply Z.leb_le in E. assert ((priority a <? priority e) = false) as -> by lia.
    by apply place_before.
  - apply Z.leb_gt in E. assert ((priority a <? priority e) = true) as -> by lia.
    rewrite place_behind.
    + simpl. assert ((priority e <=? priority a) = false) as -> by lia. done.
    + apply Forall_forall. intros y Hy.
      apply list_elem_of_In, filter_In in Hy as [_ Hy]. lia.
Qed.

End registry_more.


(** X9: installing the extension leaves the other stages of the host in
    the order of execution they had: with the stage of this name taken
    out, the order after the call is the order before it. *)
Theorem extendMarkdown_keeps_order (self : TrailingSlashExtension.t) (md : Markdown) :
  Registry.deregister "trailing_slash_preprocessor"
    (Registry.order (preprocessors (TrailingSlashExtension.extendMarkdown self md))) =
  Registry.deregister "trailing_slash_preprocessor"
    (Registry.order (preprocessors md)).
Proof.
  unfold Registry.deregister. rewrite !filter_order. f_equal.
  apply deregister_register.
Qed.

(** X10: what the host computes once the extension is installed.  The
    other stages whose priority is 25 or more run first, then the
    transformation, then the other stages whose priority is below 25. *)
Theorem extendMarkdown_pipeline
    (self : TrailingSlashExtension.t) (md : Markdown) (lines : list string) :
  let others :=
    Registry.deregister "trailing_slash_preprocessor" (preprocessors md) in
  let earlier :=
    {| preprocessors := List.filter (fun e => 25 <=? Registry.priority e) others |} in
  let later :=
    {| preprocessors := List.filter (fun e => Registry.priority e <? 25) others |} in
  run_preprocessors (TrailingSlashExtension.extendMarkdown self md) lines =
  run_preprocessors later (run (run_preprocessors earlier lines)).
Proof.
  intros others earlier later. unfold run_preprocessors. simpl.
  unfold Registry.register. fold others.
  rewrite order_snoc. simpl.
  rewrite foldl_app. simpl.
  by rewrite !filter_order.
Qed.

Example extendMarkdown_pipeline_between :
  let stage n p f :=
    {| Registry.name := n; Registry.priority := p;
       Registry.item := {| Preprocessor_run := f |} |} in
  let md :=
    {| preprocessors :=
         [stage "upper" 30 (fmap (fun l => l +:+ "\"));
          stage "lower" 20 (fmap (fun l => l +:+ "!"))] |} in
  run_preprocessors
    (TrailingSlashExtension.extendMarkdown {| TrailingSlashExtension.self_config := ∅ |} md)
    ["a"; "b\"] = ["a<br>!"; "b\<br>!"].
Proof. reflexivity. Qed.
